(** * Offboard commander node: a shallow embedding of
      [src/examples/offboard/offboard_commander_node.cpp]

    The node owns three mutable members ([timestamp_],
    [offboard_setpoint_counter_], [next_trajectory_setpoint_msg]) and reacts to
    three kinds of callbacks: the time-sync subscription, the pose
    subscription and the 33 ms wall timer.  [rclcpp::spin] runs the callbacks
    of one node one after the other, so an execution is a list of callback
    invocations, each of which transforms the members and appends to the list
    of published messages.  Log output ([RCLCPP_INFO], [std::cout]) is left
    out. *)

From Stdlib Require Import ZArith NArith QArith Qpower Zpower List Bool Lia.
From Stdlib Require Import Floats.SpecFloat.
From Stdlib Require Import Reals Qreals Lra Machin.
Import ListNotations.

(** ** IEEE 754 values

    [double] and [float] members are kept as [spec_float] values of the
    binary64 and binary32 formats.  Conversions round to nearest, ties to
    even, as the hardware does. *)
Module Float.

Definition float64 := spec_float.
Definition float32 := spec_float.

Definition prec64 : Z := 53.
Definition emax64 : Z := 1024.
Definition prec32 : Z := 24.
Definition emax32 : Z := 128.

(** An integer literal or an integral [double] literal such as [1.0]. *)
Definition double_of_Z (n : Z) : float64 :=
  binary_normalize prec64 emax64 n 0 false.

(** A decimal [double] literal [n / d]: the quotient of two exactly
    representable integers, correctly rounded, is the [double] nearest to
    the decimal. *)
Definition double_of_decimal (n d : Z) : float64 :=
  SFdiv prec64 emax64 (double_of_Z n) (double_of_Z d).

(** Unary minus. *)
Definition neg (f : spec_float) : spec_float := SFopp f.

(** Implicit conversion [double -> float] on assignment to a [float32]
    field or on passing to a [float] parameter. *)
Definition to_float32 (d : float64) : float32 :=
  match d with
  | S754_finite s m e => binary_round prec32 emax32 s m e
  | _ => d
  end.

(** Conversion [float -> double]; it is exact.  A [double] is representable
    in single precision when it is the image of a valid [float]. *)
Definition to_double (f : float32) : float64 :=
  match f with
  | S754_finite s m e => binary_round prec64 emax64 s m e
  | _ => f
  end.

(** Implicit conversion [int -> float]. *)
Definition float_of_Z (n : Z) : float32 :=
  binary_normalize prec32 emax32 n 0 false.

(** The rational number a finite value stands for. *)
Definition to_Q (f : spec_float) : option Q :=
  match f with
  | S754_zero _ => Some 0%Q
  | S754_finite s m e => Some (inject_Z (cond_Zopp s (Zpos m)) * 2 ^ e)%Q
  | S754_infinity _ | S754_nan => None
  end.

(** [f] stands for the rational [q]. *)
Definition denotes (f : spec_float) (q : Q) : Prop :=
  match to_Q f with
  | Some p => Qeq p q
  | None => False
  end.

(** Two values denote the same number. *)
Definition same_number (f g : spec_float) : Prop :=
  match to_Q f, to_Q g with
  | Some p, Some q => Qeq p q
  | _, _ => f = g
  end.

End Float.

(** ** Messages

    The message types come from the packages [geometry_msgs] and [px4_msgs].
    Each record keeps the fields that the node reads or writes. *)

Module Point.
(** Modelled from the spec: [geometry_msgs::msg::Point] is declared outside
    src/; the incoming pose has position {x, y, z : float64}. *)
Record t := Build { x : Float.float64; y : Float.float64; z : Float.float64 }.
End Point.

Module Quaternion.
(** Modelled from the spec: the orientation of the incoming pose is opaque
    to the node; it is kept as the four [double]s of a quaternion. *)
Record t := Build { x : Float.float64; y : Float.float64;
                    z : Float.float64; w : Float.float64 }.
End Quaternion.

Module Pose.
Record t := Build { position : Point.t; orientation : Quaternion.t }.
End Pose.

(** [geometry_msgs::msg::PoseStamped], what the pose subscription delivers. *)
Module PoseStamped.
Record t := Build { pose : Pose.t }.
End PoseStamped.

Module OffboardControlMode.
(** Modelled from the spec: [px4_msgs::msg::OffboardControlMode] is declared
    outside src/; five [bool] flags and the time stamp every outgoing message
    carries. *)
Record t := Build {
  timestamp : N;
  position : bool;
  velocity : bool;
  acceleration : bool;
  attitude : bool;
  body_rate : bool }.
End OffboardControlMode.

Module TrajectorySetpoint.
(** Modelled from the spec: [px4_msgs::msg::TrajectorySetpoint] is declared
    outside src/; {x, y, z : float32, yaw : float32} and the time stamp. *)
Record t := Build {
  timestamp : N;
  x : Float.float32;
  y : Float.float32;
  z : Float.float32;
  yaw : Float.float32 }.

(** [TrajectorySetpoint msg{}]: every field zero. *)
Definition zero : t := Build 0 (S754_zero false) (S754_zero false)
                             (S754_zero false) (S754_zero false).

(** Assignment to one field. *)
Definition set_timestamp (v : N) (m : t) : t := Build v (x m) (y m) (z m) (yaw m).
Definition set_x (v : Float.float32) (m : t) : t := Build (timestamp m) v (y m) (z m) (yaw m).
Definition set_y (v : Float.float32) (m : t) : t := Build (timestamp m) (x m) v (z m) (yaw m).
Definition set_z (v : Float.float32) (m : t) : t := Build (timestamp m) (x m) (y m) v (yaw m).
Definition set_yaw (v : Float.float32) (m : t) : t := Build (timestamp m) (x m) (y m) (z m) v.
End TrajectorySetpoint.

Module VehicleCommand.
(** Modelled from the spec: [px4_msgs::msg::VehicleCommand] is declared
    outside src/; {command : uint16, param1, param2 : float32, target_system,
    target_component, source_system, source_component : uint8,
    from_external : bool} and the time stamp. *)
Record t := Build {
  timestamp : N;
  param1 : Float.float32;
  param2 : Float.float32;
  command : N;
  target_system : N;
  target_component : N;
  source_system : N;
  source_component : N;
  from_external : bool }.
End VehicleCommand.

(** What the node hands to one of its three publishers. *)
Inductive Published :=
| OffboardControlMode_PubSubTopic (msg : OffboardControlMode.t)
| TrajectorySetpoint_PubSubTopic (msg : TrajectorySetpoint.t)
| VehicleCommand_PubSubTopic (msg : VehicleCommand.t).

(** What [rclcpp::spin] delivers to the node: a time-sync message with its
    [uint64] time stamp, a pose, or an expiry of the wall timer. *)
Inductive Event :=
| Timesync_PubSubTopic (timestamp : N)
| next_trajectory_setpoint (msg : PoseStamped.t)
| wall_timer.

(** ** The node's members *)
Record OffboardCommander := Build_OffboardCommander {
  timestamp_ : N;                    (* std::atomic<uint64_t> *)
  offboard_setpoint_counter_ : N;    (* uint64_t *)
  next_trajectory_setpoint_msg : TrajectorySetpoint.t }.

(** ** Member functions as state transformers that also publish *)
Definition Node (A : Type) : Type :=
  OffboardCommander -> A * OffboardCommander * list Published.

Definition ret {A} (a : A) : Node A := fun s => (a, s, []).

Definition bind {A B} (c : Node A) (k : A -> Node B) : Node B :=
  fun s =>
    let '(a, s1, out1) := c s in
    let '(b, s2, out2) := k a s1 in
    (b, s2, out1 ++ out2).

Declare Scope node_scope.
Delimit Scope node_scope with node.
Notation "x <- c ;; k" := (bind c (fun x => k))
  (at level 61, c at next level, right associativity) : node_scope.
Notation "c ;; k" := (bind c (fun _ => k))
  (at level 61, right associativity) : node_scope.
Open Scope node_scope.

Definition state_after {A} (c : Node A) (s : OffboardCommander) : OffboardCommander :=
  snd (fst (c s)).

Definition published_by {A} (c : Node A) (s : OffboardCommander) : list Published :=
  snd (c s).

(** [timestamp_.load()] and [timestamp_.store(v)]. *)
Definition timestamp_load : Node N := fun s => (timestamp_ s, s, []).

Definition timestamp_store (v : N) : Node unit :=
  fun s => (tt, Build_OffboardCommander v (offboard_setpoint_counter_ s)
                  (next_trajectory_setpoint_msg s), []).

Definition read_counter : Node N := fun s => (offboard_setpoint_counter_ s, s, []).

Definition write_counter (v : N) : Node unit :=
  fun s => (tt, Build_OffboardCommander (timestamp_ s) v
                  (next_trajectory_setpoint_msg s), []).

Definition read_setpoint : Node TrajectorySetpoint.t :=
  fun s => (next_trajectory_setpoint_msg s, s, []).

Definition modify_setpoint (f : TrajectorySetpoint.t -> TrajectorySetpoint.t) : Node unit :=
  fun s => (tt, Build_OffboardCommander (timestamp_ s) (offboard_setpoint_counter_ s)
                  (f (next_trajectory_setpoint_msg s)), []).

Definition publish (p : Published) : Node unit := fun s => (tt, s, [p]).

(** [uint64_t] arithmetic wraps modulo 2^64. *)
Definition uint64_incr (n : N) : N := ((n + 1) mod 2 ^ 64)%N.

(** The literal [-3.14], a [double]. *)
Definition yaw_literal : Float.float64 := Float.neg (Float.double_of_decimal 314 100).

Section Commander.

(** [VehicleCommand::VEHICLE_CMD_DO_SET_MODE] and
    [VehicleCommand::VEHICLE_CMD_COMPONENT_ARM_DISARM] are [uint16]
    constants of the message package. *)
Variable VEHICLE_CMD_DO_SET_MODE : N.
Variable VEHICLE_CMD_COMPONENT_ARM_DISARM : N.

(** [publish_vehicle_command(command, param1, param2)]. *)
Definition publish_vehicle_command (command : N) (param1 param2 : Float.float32)
  : Node unit :=
  now <- timestamp_load ;;
  publish (VehicleCommand_PubSubTopic
             {| VehicleCommand.timestamp := now;
                VehicleCommand.param1 := param1;
                VehicleCommand.param2 := param2;
                VehicleCommand.command := command;
                VehicleCommand.target_system := 1;
                VehicleCommand.target_component := 1;
                VehicleCommand.source_system := 1;
                VehicleCommand.source_component := 1;
                VehicleCommand.from_external := true |}).

(** The default argument [= 0.0] of [param1] and of [param2]. *)
Definition default_param : Float.float32 := Float.to_float32 (Float.double_of_Z 0).

(** [arm()]. *)
Definition arm : Node unit :=
  publish_vehicle_command VEHICLE_CMD_COMPONENT_ARM_DISARM
    (Float.to_float32 (Float.double_of_Z 1)) default_param.

(** [disarm()]. *)
Definition disarm : Node unit :=
  publish_vehicle_command VEHICLE_CMD_COMPONENT_ARM_DISARM
    (Float.to_float32 (Float.double_of_Z 0)) default_param.

(** [publish_offboard_control_mode()]. *)
Definition publish_offboard_control_mode : Node unit :=
  now <- timestamp_load ;;
  publish (OffboardControlMode_PubSubTopic
             {| OffboardControlMode.timestamp := now;
                OffboardControlMode.position := true;
                OffboardControlMode.velocity := false;
                OffboardControlMode.acceleration := false;
                OffboardControlMode.attitude := false;
                OffboardControlMode.body_rate := false |}).

(** [update_target_setpoint_cb(msg)]. *)
Definition update_target_setpoint_cb (msg : PoseStamped.t) : Node unit :=
  let position := Pose.position (PoseStamped.pose msg) in
  now <- timestamp_load ;;
  modify_setpoint (TrajectorySetpoint.set_timestamp now) ;;
  modify_setpoint (TrajectorySetpoint.set_x (Float.to_float32 (Point.x position))) ;;
  modify_setpoint (TrajectorySetpoint.set_y (Float.to_float32 (Point.y position))) ;;
  modify_setpoint (TrajectorySetpoint.set_z
                     (Float.to_float32 (Float.neg (Point.z position)))) ;;
  modify_setpoint (TrajectorySetpoint.set_yaw (Float.to_float32 yaw_literal)).

(** [publish_trajectory_setpoint()]. *)
Definition publish_trajectory_setpoint : Node unit :=
  now <- timestamp_load ;;
  next <- read_setpoint ;;
  let msg := TrajectorySetpoint.zero in
  let msg := TrajectorySetpoint.set_timestamp now msg in
  let msg := TrajectorySetpoint.set_x (TrajectorySetpoint.x next) msg in
  let msg := TrajectorySetpoint.set_y (TrajectorySetpoint.y next) msg in
  let msg := TrajectorySetpoint.set_z (TrajectorySetpoint.z next) msg in
  let msg := TrajectorySetpoint.set_yaw (TrajectorySetpoint.yaw next) msg in
  publish (TrajectorySetpoint_PubSubTopic msg).

(** The lambda [timer_callback] of the constructor. *)
Definition timer_callback : Node unit :=
  counter <- read_counter ;;
  (if (counter =? 10)%N
   then publish_vehicle_command VEHICLE_CMD_DO_SET_MODE
          (Float.float_of_Z 1) (Float.float_of_Z 6) ;;
        arm
   else ret tt) ;;
  publish_offboard_control_mode ;;
  publish_trajectory_setpoint ;;
  counter <- read_counter ;;
  if (counter <? 11)%N
  then write_counter (uint64_incr counter)
  else ret tt.

(** The lambda of the time-sync subscription. *)
Definition timesync_cb (timestamp : N) : Node unit := timestamp_store timestamp.

(** The constructor body.  Neither [timestamp_] nor
    [offboard_setpoint_counter_] has an initialiser, so the object starts with
    whatever its storage holds.  The constructor assigns 0 to the counter; no
    mem-initialiser or statement of it stores to [timestamp_], which it reads
    for the stamp of the first setpoint.  [next_trajectory_setpoint_msg] is
    default-constructed, all fields zero. *)
Definition OffboardCommander_ctor : Node unit :=
  write_counter 0 ;;
  now <- timestamp_load ;;
  modify_setpoint (TrajectorySetpoint.set_timestamp now) ;;
  modify_setpoint (TrajectorySetpoint.set_x (Float.to_float32 (Float.double_of_Z 0))) ;;
  modify_setpoint (TrajectorySetpoint.set_y (Float.to_float32 (Float.double_of_Z 0))) ;;
  modify_setpoint (TrajectorySetpoint.set_z
                     (Float.to_float32 (Float.neg (Float.double_of_Z 1)))) ;;
  modify_setpoint (TrajectorySetpoint.set_yaw (Float.to_float32 yaw_literal)).

(** [std::make_shared<OffboardCommander>()] in [main]: the constructor run on
    fresh storage, [storage] being the content found where [timestamp_] lives
    and [leftover] the content found where [offboard_setpoint_counter_]
    lives. *)
Definition make_shared (storage leftover : N) : OffboardCommander :=
  state_after OffboardCommander_ctor
    (Build_OffboardCommander storage leftover TrajectorySetpoint.zero).

(** One callback invocation. *)
Definition dispatch (e : Event) : Node unit :=
  match e with
  | Timesync_PubSubTopic timestamp => timesync_cb timestamp
  | next_trajectory_setpoint msg => update_target_setpoint_cb msg
  | wall_timer => timer_callback
  end.

(** [rclcpp::spin]: the callbacks in order of arrival. *)
Fixpoint spin (events : list Event) : Node unit :=
  match events with
  | [] => ret tt
  | e :: rest => dispatch e ;; spin rest
  end.

(** ** Observing an execution *)

(** The messages of one publisher, in order of publication. *)
Fixpoint vehicle_commands (out : list Published) : list VehicleCommand.t :=
match out with
| [] => []
| VehicleCommand_PubSubTopic m :: rest => m :: vehicle_commands rest
| _ :: rest => vehicle_commands rest
end.

Fixpoint control_modes (out : list Published) : list OffboardControlMode.t :=
match out with
| [] => []
| OffboardControlMode_PubSubTopic m :: rest => m :: control_modes rest
| _ :: rest => control_modes rest
end.

Fixpoint setpoints (out : list Published) : list TrajectorySetpoint.t :=
match out with
| [] => []
| TrajectorySetpoint_PubSubTopic m :: rest => m :: setpoints rest
| _ :: rest => setpoints rest
end.

(** The time stamp carried by a published message. *)
Definition stamp (p : Published) : N :=
match p with
| OffboardControlMode_PubSubTopic m => OffboardControlMode.timestamp m
| TrajectorySetpoint_PubSubTopic m => TrajectorySetpoint.timestamp m
| VehicleCommand_PubSubTopic m => VehicleCommand.timestamp m
end.

(** Number of timer expirations among the events. *)
Fixpoint ticks (events : list Event) : N :=
match events with
| [] => 0
| wall_timer :: rest => 1 + ticks rest
| _ :: rest => ticks rest
end.

Definition is_pose (e : Event) : bool :=
match e with next_trajectory_setpoint _ => true | _ => false end.

Definition is_timesync (e : Event) : bool :=
match e with Timesync_PubSubTopic _ => true | _ => false end.

(** The time stamps of the time-sync events, in order of arrival. *)
Fixpoint sync_values (events : list Event) : list N :=
match events with
| [] => []
| Timesync_PubSubTopic t :: rest => t :: sync_values rest
| _ :: rest => sync_values rest
end.

(** The value of the last time-sync event, [initial] when there is none. *)
Definition last_sync (initial : N) (events : list Event) : N :=
last (sync_values events) initial.

(** A list of numbers never decreases from one element to the next. *)
Fixpoint non_decreasing (l : list N) : Prop :=
match l with
| [] => True
| a :: rest =>
    match rest with
    | [] => True
    | b :: _ => (a <= b)%N /\ non_decreasing rest
    end
end.

(** Two node states that agree on everything but the time stamp kept inside
  the stored setpoint. *)
Definition same_but_setpoint_stamp (s1 s2 : OffboardCommander) : Prop :=
timestamp_ s1 = timestamp_ s2 /\
offboard_setpoint_counter_ s1 = offboard_setpoint_counter_ s2 /\
TrajectorySetpoint.x (next_trajectory_setpoint_msg s1)
  = TrajectorySetpoint.x (next_trajectory_setpoint_msg s2) /\
TrajectorySetpoint.y (next_trajectory_setpoint_msg s1)
  = TrajectorySetpoint.y (next_trajectory_setpoint_msg s2) /\
TrajectorySetpoint.z (next_trajectory_setpoint_msg s1)
  = TrajectorySetpoint.z (next_trajectory_setpoint_msg s2) /\
TrajectorySetpoint.yaw (next_trajectory_setpoint_msg s1)
  = TrajectorySetpoint.yaw (next_trajectory_setpoint_msg s2).

(** ** Equations of the callbacks *)

Lemma publish_vehicle_command_eq command p1 p2 s :
  publish_vehicle_command command p1 p2 s =
  (tt, s, [VehicleCommand_PubSubTopic
             (VehicleCommand.Build (timestamp_ s) p1 p2 command 1 1 1 1 true)]).
Proof. reflexivity. Qed.

Lemma publish_offboard_control_mode_eq s :
  publish_offboard_control_mode s =
  (tt, s, [OffboardControlMode_PubSubTopic
             (OffboardControlMode.Build (timestamp_ s) true false false false false)]).
Proof. reflexivity. Qed.

Lemma publish_trajectory_setpoint_eq s :
  publish_trajectory_setpoint s =
  (tt, s, [TrajectorySetpoint_PubSubTopic
             (TrajectorySetpoint.Build (timestamp_ s)
                (TrajectorySetpoint.x (next_trajectory_setpoint_msg s))
                (TrajectorySetpoint.y (next_trajectory_setpoint_msg s))
                (TrajectorySetpoint.z (next_trajectory_setpoint_msg s))
                (TrajectorySetpoint.yaw (next_trajectory_setpoint_msg s)))]).
Proof. reflexivity. Qed.

Lemma update_target_setpoint_cb_eq msg s :
  update_target_setpoint_cb msg s =
  (tt,
   Build_OffboardCommander (timestamp_ s) (offboard_setpoint_counter_ s)
     (TrajectorySetpoint.Build (timestamp_ s)
        (Float.to_float32 (Point.x (Pose.position (PoseStamped.pose msg))))
        (Float.to_float32 (Point.y (Pose.position (PoseStamped.pose msg))))
        (Float.to_float32 (Float.neg (Point.z (Pose.position (PoseStamped.pose msg)))))
        (Float.to_float32 yaw_literal)),
   []).
Proof. reflexivity. Qed.

Lemma timer_callback_eq s :
  timer_callback s =
  (tt,
   Build_OffboardCommander (timestamp_ s)
     (if (offboard_setpoint_counter_ s <? 11)%N
      then uint64_incr (offboard_setpoint_counter_ s)
      else offboard_setpoint_counter_ s)
     (next_trajectory_setpoint_msg s),
   (if (offboard_setpoint_counter_ s =? 10)%N
    then published_by (publish_vehicle_command VEHICLE_CMD_DO_SET_MODE
                         (Float.float_of_Z 1) (Float.float_of_Z 6)) s
         ++ published_by arm s
    else [])
   ++ published_by publish_offboard_control_mode s
   ++ published_by publish_trajectory_setpoint s).
Proof.
  destruct s as [now counter next].
  unfold timer_callback, bind, read_counter.
  cbn [offboard_setpoint_counter_].
  destruct (counter =? 10)%N;
    cbn -[Float.float_of_Z Float.to_float32 Float.double_of_Z uint64_incr N.ltb];
    destruct (counter <? 11)%N; reflexivity.
Qed.

Lemma timesync_cb_eq t s :
  timesync_cb t s =
  (tt, Build_OffboardCommander t (offboard_setpoint_counter_ s)
         (next_trajectory_setpoint_msg s), []).
Proof. reflexivity. Qed.

(** *** Sequencing *)

Lemma published_by_bind {A B} (c : Node A) (k : A -> Node B) s :
  published_by (bind c k) s =
  published_by c s ++ published_by (k (fst (fst (c s)))) (state_after c s).
Proof.
  unfold published_by, state_after, bind.
  destruct (c s) as [[a s1] out1]; cbn [fst snd].
  destruct (k a s1) as [[b s2] out2]; reflexivity.
Qed.

Lemma state_after_bind {A B} (c : Node A) (k : A -> Node B) s :
  state_after (bind c k) s = state_after (k (fst (fst (c s)))) (state_after c s).
Proof.
  unfold state_after, bind.
  destruct (c s) as [[a s1] out1]; cbn [fst snd].
  destruct (k a s1) as [[b s2] out2]; reflexivity.
Qed.

Lemma published_by_spin_cons e rest s :
  published_by (spin (e :: rest)) s =
  published_by (dispatch e) s ++ published_by (spin rest) (state_after (dispatch e) s).
Proof. cbn [spin]. apply published_by_bind. Qed.

Lemma state_after_spin_cons e rest s :
  state_after (spin (e :: rest)) s = state_after (spin rest) (state_after (dispatch e) s).
Proof. cbn [spin]. apply state_after_bind. Qed.

Lemma state_after_spin_app before after s :
  state_after (spin (before ++ after)) s =
  state_after (spin after) (state_after (spin before) s).
Proof.
  revert s; induction before as [|e before IH]; intro s.
  - reflexivity.
  - cbn [app]. rewrite !state_after_spin_cons. apply IH.
Qed.

Lemma published_by_spin_app before after s :
  published_by (spin (before ++ after)) s =
  published_by (spin before) s ++
  published_by (spin after) (state_after (spin before) s).
Proof.
  revert s; induction before as [|e before IH]; intro s.
  - reflexivity.
  - cbn [app]. rewrite !published_by_spin_cons, state_after_spin_cons, IH.
    apply app_assoc.
Qed.

(** *** What one callback does to each member and to the publishers *)

Lemma dispatch_timestamp e s :
  timestamp_ (state_after (dispatch e) s) =
  match e with Timesync_PubSubTopic t => t | _ => timestamp_ s end.
Proof.
  destruct e; unfold state_after, dispatch;
    [rewrite timesync_cb_eq | rewrite update_target_setpoint_cb_eq
    | rewrite timer_callback_eq]; reflexivity.
Qed.

Lemma dispatch_counter e s :
  offboard_setpoint_counter_ (state_after (dispatch e) s) =
  match e with
  | wall_timer =>
      if (offboard_setpoint_counter_ s <? 11)%N
      then (offboard_setpoint_counter_ s + 1)%N
      else offboard_setpoint_counter_ s
  | _ => offboard_setpoint_counter_ s
  end.
Proof.
  destruct e; unfold state_after, dispatch;
    [rewrite timesync_cb_eq | rewrite update_target_setpoint_cb_eq
    | rewrite timer_callback_eq]; cbn [fst snd offboard_setpoint_counter_];
    try reflexivity.
  destruct (N.ltb_spec (offboard_setpoint_counter_ s) 11); [|reflexivity].
  unfold uint64_incr. apply N.mod_small.
  apply N.lt_trans with (m := 12%N); [lia | reflexivity].
Qed.

Lemma dispatch_published e s :
  published_by (dispatch e) s =
  match e with
  | wall_timer =>
      (if (offboard_setpoint_counter_ s =? 10)%N
       then [VehicleCommand_PubSubTopic
               (VehicleCommand.Build (timestamp_ s) (Float.float_of_Z 1)
                  (Float.float_of_Z 6) VEHICLE_CMD_DO_SET_MODE 1 1 1 1 true);
             VehicleCommand_PubSubTopic
               (VehicleCommand.Build (timestamp_ s)
                  (Float.to_float32 (Float.double_of_Z 1)) default_param
                  VEHICLE_CMD_COMPONENT_ARM_DISARM 1 1 1 1 true)]
       else [])
      ++ [OffboardControlMode_PubSubTopic
            (OffboardControlMode.Build (timestamp_ s) true false false false false);
          TrajectorySetpoint_PubSubTopic
            (TrajectorySetpoint.Build (timestamp_ s)
               (TrajectorySetpoint.x (next_trajectory_setpoint_msg s))
               (TrajectorySetpoint.y (next_trajectory_setpoint_msg s))
               (TrajectorySetpoint.z (next_trajectory_setpoint_msg s))
               (TrajectorySetpoint.yaw (next_trajectory_setpoint_msg s)))]
  | _ => []
  end.
Proof.
  destruct e; unfold published_by, dispatch;
    [rewrite timesync_cb_eq | rewrite update_target_setpoint_cb_eq
    | rewrite timer_callback_eq]; reflexivity.
Qed.

Lemma vehicle_commands_app a b :
  vehicle_commands (a ++ b) = vehicle_commands a ++ vehicle_commands b.
Proof.
  induction a as [|[m|m|m] a IH]; cbn [app vehicle_commands];
    rewrite ?IH; reflexivity.
Qed.

Lemma control_modes_app a b :
  control_modes (a ++ b) = control_modes a ++ control_modes b.
Proof.
  induction a as [|[m|m|m] a IH]; cbn [app control_modes];
    rewrite ?IH; reflexivity.
Qed.

Lemma setpoints_app a b :
  setpoints (a ++ b) = setpoints a ++ setpoints b.
Proof.
  induction a as [|[m|m|m] a IH]; cbn [app setpoints];
    rewrite ?IH; reflexivity.
Qed.

Lemma dispatch_setpoint e s :
  next_trajectory_setpoint_msg (state_after (dispatch e) s) =
  match e with
  | next_trajectory_setpoint msg =>
      TrajectorySetpoint.Build (timestamp_ s)
        (Float.to_float32 (Point.x (Pose.position (PoseStamped.pose msg))))
        (Float.to_float32 (Point.y (Pose.position (PoseStamped.pose msg))))
        (Float.to_float32 (Float.neg (Point.z (Pose.position (PoseStamped.pose msg)))))
        (Float.to_float32 yaw_literal)
  | _ => next_trajectory_setpoint_msg s
  end.
Proof.
  destruct e; unfold state_after, dispatch;
    [rewrite timesync_cb_eq | rewrite update_target_setpoint_cb_eq
    | rewrite timer_callback_eq]; reflexivity.
Qed.

Lemma dispatch_stamps e s :
  Forall (fun p => stamp p = timestamp_ s) (published_by (dispatch e) s).
Proof.
  rewrite dispatch_published. destruct e; [constructor | constructor |].
  destruct (offboard_setpoint_counter_ s =? 10)%N; repeat constructor.
Qed.

(** Rounding to single precision commutes with the sign flip. *)
Lemma to_float32_neg d :
  Float.to_float32 (Float.neg d) = Float.neg (Float.to_float32 d).
Proof.
  destruct d as [s|s| |s m e]; try reflexivity.
  unfold Float.to_float32, Float.neg, SFopp, binary_round.
  destruct (shl_align m e _) as [mz ez].
  unfold binary_round_aux.
  destruct (shr_fexp _ _ _ _ _) as [mrs' e'].
  destruct (shr_fexp _ _ _ _ _) as [mrs'' e''].
  destruct (shr_m mrs''); try reflexivity.
  destruct (Z.leb _ _); reflexivity.
Qed.

(** *** Single-precision values survive the trip through [double] *)

Lemma iter_pos_swap {A} (f : A -> A) p x : SpecFloat.iter_pos f p (f x) = f (SpecFloat.iter_pos f p x).
Proof.
  revert x; induction p as [p IH|p IH|]; intro x; cbn [SpecFloat.iter_pos];
    rewrite ?IH; reflexivity.
Qed.

Lemma iter_pos_succ {A} (f : A -> A) p x :
  SpecFloat.iter_pos f (Pos.succ p) x = f (SpecFloat.iter_pos f p x).
Proof.
  revert x; induction p as [p IH|p IH|]; intro x; cbn [SpecFloat.iter_pos Pos.succ].
  - rewrite !IH, !iter_pos_swap. reflexivity.
  - rewrite !iter_pos_swap. reflexivity.
  - reflexivity.
Qed.

Lemma digits2_pos_shift k m :
  digits2_pos (Pos.iter xO m k) = (digits2_pos m + k)%positive.
Proof.
  induction k as [|k IH] using Pos.peano_ind.
  - cbn. lia.
  - rewrite Pos.iter_succ. cbn [digits2_pos]. rewrite IH. lia.
Qed.

(** Shifting out [k] zero bits is exact. *)
Lemma shr_of_shifted k m :
  SpecFloat.iter_pos shr_1 k (Build_shr_record (Zpos (Pos.iter xO m k)) false false)
  = Build_shr_record (Zpos m) false false.
Proof.
  revert m; induction k as [|k IH] using Pos.peano_ind; intro m.
  - reflexivity.
  - rewrite Pos.iter_succ_r, iter_pos_succ, IH. reflexivity.
Qed.

Lemma to_float32_of_shifted s m e k :
  SpecFloat.bounded Float.prec32 Float.emax32 m e = true ->
  Float.to_float32 (S754_finite s (Pos.iter xO m k) (e - Zpos k)) = S754_finite s m e.
Proof.
  intro B. unfold SpecFloat.bounded, canonical_mantissa in B.
  apply andb_prop in B. destruct B as [C E]. apply Z.eqb_eq in C.
  assert (K : forall z, (z - (z - Z.pos k) = Z.pos k)%Z) by (intro; lia).
  assert (D : (Z.pos (digits2_pos m + k) + (e - Z.pos k)
               = Z.pos (digits2_pos m) + e)%Z) by lia.
  unfold Float.to_float32, binary_round.
  rewrite digits2_pos_shift, D, C. unfold shl_align. rewrite K.
  unfold binary_round_aux, shr_fexp.
  cbn [Zdigits2]. rewrite digits2_pos_shift, D, C, K.
  cbn [shr_record_of_loc shr]. rewrite shr_of_shifted.
  cbn [shr_m loc_of_shr_record round_nearest_even Zdigits2].
  replace (e - Z.pos k + Z.pos k)%Z with e by lia.
  rewrite C, Z.sub_diag. cbn [shr shr_m]. rewrite E. reflexivity.
Qed.

Lemma to_double_shifts s m e :
  SpecFloat.bounded Float.prec32 Float.emax32 m e = true ->
  exists k,
    Float.to_double (S754_finite s m e)
    = S754_finite s (Pos.iter xO m k) (e - Zpos k).
Proof.
  intro B. unfold SpecFloat.bounded, canonical_mantissa in B.
  apply andb_prop in B. destruct B as [C E].
  apply Z.eqb_eq in C. apply Z.leb_le in E.
  unfold Float.prec32, Float.emax32 in C, E.
  assert (D : (Z.pos (digits2_pos m) <= 24 /\ -149 <= e)%Z)
    by (unfold fexp, emin in C; lia).
  destruct D as [D L].
  set (e' := fexp Float.prec64 Float.emax64 (Z.pos (digits2_pos m) + e)).
  assert (He' : (e' < e)%Z)
    by (unfold e', fexp, emin, Float.prec64, Float.emax64; lia).
  destruct (e - e')%Z as [|k|k] eqn:K; try lia.
  exists k.
  assert (S : (Z.pos (digits2_pos m + k) + e' = Z.pos (digits2_pos m) + e)%Z) by lia.
  unfold Float.to_double, binary_round. fold e'.
  unfold shl_align. replace (e' - e)%Z with (Z.neg k) by lia.
  unfold binary_round_aux, shr_fexp. cbn [Zdigits2].
  rewrite digits2_pos_shift, S. fold e'. rewrite Z.sub_diag.
  cbn [shr_record_of_loc shr shr_m loc_of_shr_record round_nearest_even Zdigits2].
  rewrite digits2_pos_shift, S. fold e'. rewrite Z.sub_diag. cbn [shr shr_m].
  replace (e' <=? Float.emax64 - Float.prec64)%Z with true
    by (symmetry; apply Z.leb_le; unfold Float.emax64, Float.prec64; lia).
  f_equal. lia.
Qed.

Lemma shifted_same_number s m e k :
  Float.same_number (S754_finite s (Pos.iter xO m k) (e - Zpos k)) (S754_finite s m e).
Proof.
  unfold Float.same_number, Float.to_Q.
  assert (H2 : ~ (2 == 0)%Q) by discriminate.
  assert (Hm : cond_Zopp s (Zpos (Pos.iter xO m k))
               = (2 ^ Zpos k * cond_Zopp s (Zpos m))%Z).
  { change (Pos.iter xO m k) with (shift_pos k m).
    rewrite shift_pos_correct, Z.pow_pos_fold.
    destruct s; cbn [cond_Zopp]; lia. }
  rewrite Hm, inject_Z_mult, Zpower_Qpower by lia.
  rewrite Qpower_minus by exact H2.
  change (inject_Z 2) with 2%Q.
  field. apply Qpower_not_0. exact H2.
Qed.

(** [float -> double -> float] is the identity, and the [double] in the
    middle is the same number. *)
Lemma float_double_float f :
  valid_binary Float.prec32 Float.emax32 f = true ->
  Float.to_float32 (Float.to_double f) = f /\
  Float.same_number (Float.to_double f) f.
Proof.
  destruct f as [s|s| |s m e];
    try (intros _; split; [reflexivity | cbn; reflexivity]).
  intro B. cbn [valid_binary] in B.
  destruct (to_double_shifts s m e B) as [k ->]. split.
  - apply to_float32_of_shifted. exact B.
  - apply shifted_same_number.
Qed.

(** The commands of one timer expiry. *)
Lemma timer_callback_commands s :
  vehicle_commands (published_by timer_callback s) =
  if (offboard_setpoint_counter_ s =? 10)%N
  then [VehicleCommand.Build (timestamp_ s) (Float.float_of_Z 1)
          (Float.float_of_Z 6) VEHICLE_CMD_DO_SET_MODE 1 1 1 1 true;
        VehicleCommand.Build (timestamp_ s)
          (Float.to_float32 (Float.double_of_Z 1)) default_param
          VEHICLE_CMD_COMPONENT_ARM_DISARM 1 1 1 1 true]
  else [].
Proof.
  change timer_callback with (dispatch wall_timer).
  rewrite dispatch_published, vehicle_commands_app.
  destruct (offboard_setpoint_counter_ s =? 10)%N; reflexivity.
Qed.

(** The counter after a run: it advances with the timer up to 11. *)
Lemma spin_counter events s :
  (offboard_setpoint_counter_ s <= 11)%N ->
  offboard_setpoint_counter_ (state_after (spin events) s) =
  N.min 11 (offboard_setpoint_counter_ s + ticks events).
Proof.
  revert s; induction events as [|e events IH]; intros s Hs.
  - cbn [ticks]. unfold state_after, spin, ret; cbn [fst snd]. lia.
  - rewrite state_after_spin_cons, IH; rewrite dispatch_counter.
    + destruct e; cbn [ticks]; try reflexivity.
      destruct (N.ltb_spec (offboard_setpoint_counter_ s) 11); lia.
    + destruct e; try assumption.
      destruct (N.ltb_spec (offboard_setpoint_counter_ s) 11); lia.
Qed.

(** The commands of a run that starts with the counter at [c]. *)
Lemma spin_commands events s :
  let c := offboard_setpoint_counter_ s in
  let commands := vehicle_commands (published_by (spin events) s) in
  ((c + ticks events <= 10 \/ 10 < c)%N -> commands = []) /\
  ((c <= 10 /\ 10 < c + ticks events)%N ->
   exists now,
     commands =
     [VehicleCommand.Build now (Float.float_of_Z 1)
        (Float.float_of_Z 6) VEHICLE_CMD_DO_SET_MODE 1 1 1 1 true;
      VehicleCommand.Build now
        (Float.to_float32 (Float.double_of_Z 1)) default_param
        VEHICLE_CMD_COMPONENT_ARM_DISARM 1 1 1 1 true]).
Proof.
  revert s; induction events as [|e events IH]; intro s; cbn zeta.
  - cbn [ticks]. split; [reflexivity | lia].
  - rewrite published_by_spin_cons, vehicle_commands_app.
    specialize (IH (state_after (dispatch e) s)); cbn zeta in IH.
    rewrite dispatch_counter in IH. rewrite dispatch_published.
    destruct e as [t|msg|]; cbn [ticks app vehicle_commands]; try exact IH.
    rewrite vehicle_commands_app; cbn [vehicle_commands app].
    rewrite app_nil_r.
    destruct IH as [IHnone IHpair].
    destruct (N.eqb_spec (offboard_setpoint_counter_ s) 10) as [E|E];
      destruct (N.ltb_spec (offboard_setpoint_counter_ s) 11) as [L|L];
      try lia; cbn [vehicle_commands app].
    + split; [lia|]. intros _. exists (timestamp_ s).
      rewrite IHnone by lia. reflexivity.
    + split; intro H.
      * apply IHnone; lia.
      * apply IHpair; lia.
    + split; intro H.
      * apply IHnone; lia.
      * lia.
Qed.

(** *** The time reference along a run *)

Lemma last_nonempty_default (a : N) l d d' : last (a :: l) d = last (a :: l) d'.
Proof.
  revert a; induction l as [|b l IH]; intro a; [reflexivity|].
  change (last (b :: l) d = last (b :: l) d'). apply IH.
Qed.

Lemma spin_timestamp events s :
  timestamp_ (state_after (spin events) s) = last_sync (timestamp_ s) events.
Proof.
  unfold last_sync.
  revert s; induction events as [|e events IH]; intro s.
  - reflexivity.
  - rewrite state_after_spin_cons, IH, dispatch_timestamp.
    destruct e as [t|msg|]; cbn [sync_values]; try reflexivity.
    destruct (sync_values events) as [|n l]; [reflexivity|].
    change (last (t :: n :: l) (timestamp_ s)) with (last (n :: l) (timestamp_ s)).
    apply last_nonempty_default.
Qed.

Lemma spin_stamps_unsynced events s :
  sync_values events = [] ->
  Forall (fun p => stamp p = timestamp_ s) (published_by (spin events) s).
Proof.
  revert s; induction events as [|e events IH]; intros s H.
  - constructor.
  - rewrite published_by_spin_cons. apply Forall_app. split.
    + apply dispatch_stamps.
    + destruct e as [t|msg|]; cbn [sync_values] in H; try discriminate.
      * specialize (IH (state_after (dispatch (next_trajectory_setpoint msg)) s) H).
        rewrite dispatch_timestamp in IH. exact IH.
      * specialize (IH (state_after (dispatch wall_timer) s) H).
        rewrite dispatch_timestamp in IH. exact IH.
Qed.

Lemma non_decreasing_tail a l : non_decreasing (a :: l) -> non_decreasing l.
Proof. destruct l; cbn; tauto. Qed.

Lemma non_decreasing_lower a b l :
  (a <= b)%N -> non_decreasing (b :: l) -> non_decreasing (a :: l).
Proof.
  destruct l as [|c l]; cbn; [tauto|]. intros H [H1 H2]. split; [lia | exact H2].
Qed.

Lemma non_decreasing_repeat a l l' :
  Forall (fun v => v = a) l ->
  non_decreasing (a :: l') -> non_decreasing (a :: l ++ l').
Proof.
  induction 1 as [|v l Hv Hl IH]; intro H; [exact H|].
  subst v. cbn [app]. specialize (IH H).
  change (non_decreasing (a :: a :: l ++ l')) with
    ((a <= a)%N /\ non_decreasing (a :: l ++ l')).
  split; [lia | exact IH].
Qed.

Lemma spin_stamps_non_decreasing events s :
  non_decreasing (timestamp_ s :: sync_values events) ->
  non_decreasing (timestamp_ s :: map stamp (published_by (spin events) s)).
Proof.
  revert s; induction events as [|e events IH]; intros s H.
  - exact I.
  - rewrite published_by_spin_cons, map_app.
    specialize (IH (state_after (dispatch e) s)).
    rewrite dispatch_timestamp in IH.
    apply non_decreasing_repeat.
    + apply Forall_map. apply dispatch_stamps.
    + destruct e as [t|msg|]; cbn [sync_values] in H; try (apply IH; exact H).
      change (non_decreasing (timestamp_ s :: t :: sync_values events)) with
        ((timestamp_ s <= t)%N /\ non_decreasing (t :: sync_values events)) in H.
      destruct H as [Hle Hrest].
      apply non_decreasing_lower with (b := t); [exact Hle | apply IH; exact Hrest].
Qed.

(** *** The stored setpoint along a run *)

Lemma spin_setpoint_without_pose events s :
  forallb (fun e => negb (is_pose e)) events = true ->
  next_trajectory_setpoint_msg (state_after (spin events) s)
  = next_trajectory_setpoint_msg s.
Proof.
  revert s; induction events as [|e events IH]; intros s H.
  - reflexivity.
  - cbn [forallb] in H. apply andb_prop in H. destruct H as [He H].
    rewrite state_after_spin_cons, IH by exact H. rewrite dispatch_setpoint.
    destruct e; [reflexivity | discriminate | reflexivity].
Qed.

Lemma spin_setpoints_without_pose events s :
  forallb (fun e => negb (is_pose e)) events = true ->
  Forall (fun m =>
            TrajectorySetpoint.x m = TrajectorySetpoint.x (next_trajectory_setpoint_msg s) /\
            TrajectorySetpoint.y m = TrajectorySetpoint.y (next_trajectory_setpoint_msg s) /\
            TrajectorySetpoint.z m = TrajectorySetpoint.z (next_trajectory_setpoint_msg s) /\
            TrajectorySetpoint.yaw m = TrajectorySetpoint.yaw (next_trajectory_setpoint_msg s))
    (setpoints (published_by (spin events) s)).
Proof.
  revert s; induction events as [|e events IH]; intros s H.
  - constructor.
  - cbn [forallb] in H. apply andb_prop in H. destruct H as [He H].
    rewrite published_by_spin_cons, setpoints_app. apply Forall_app. split.
    + rewrite dispatch_published. destruct e; [constructor | constructor |].
      rewrite setpoints_app.
      destruct (offboard_setpoint_counter_ s =? 10)%N;
        cbn [setpoints app]; repeat constructor.
    + specialize (IH (state_after (dispatch e) s) H).
      rewrite dispatch_setpoint in IH.
      destruct e; [exact IH | discriminate | exact IH].
Qed.

(** *** States that differ in the stored time stamp only *)

Lemma dispatch_same_but_setpoint_stamp e s1 s2 :
  same_but_setpoint_stamp s1 s2 ->
  published_by (dispatch e) s1 = published_by (dispatch e) s2 /\
  same_but_setpoint_stamp (state_after (dispatch e) s1) (state_after (dispatch e) s2).
Proof.
  intros (Ht & Hc & Hx & Hy & Hz & Hyaw). split.
  - rewrite !dispatch_published. destruct e; try reflexivity.
    rewrite Ht, Hc, Hx, Hy, Hz, Hyaw. reflexivity.
  - unfold same_but_setpoint_stamp.
    rewrite !dispatch_timestamp, !dispatch_counter, !dispatch_setpoint.
    destruct e; cbn [TrajectorySetpoint.x TrajectorySetpoint.y
                     TrajectorySetpoint.z TrajectorySetpoint.yaw];
      rewrite ?Hc; auto 10.
Qed.

(** ** The handshake *)

(** C1: one timer expiry publishes the mode-change command followed by the
    arm command, in that order, exactly when the counter is 10 on entry, and
    no command at all for any other counter value (0..9 and 11 among them);
    over a whole execution from start-up the pair is published once, by the
    eleventh expiry, and nothing before it. *)
Theorem C1_handshake_only_at_ten :
  (forall s,
     let mode_change :=
       VehicleCommand.Build (timestamp_ s)
         (S754_finite false 8388608 (-23)) (S754_finite false 12582912 (-21))
         VEHICLE_CMD_DO_SET_MODE 1 1 1 1 true in
     let arm_command :=
       VehicleCommand.Build (timestamp_ s)
         (S754_finite false 8388608 (-23)) (S754_zero false)
         VEHICLE_CMD_COMPONENT_ARM_DISARM 1 1 1 1 true in
     (vehicle_commands (published_by timer_callback s) = [mode_change; arm_command]
      <-> offboard_setpoint_counter_ s = 10%N) /\
     (offboard_setpoint_counter_ s <> 10%N ->
      vehicle_commands (published_by timer_callback s) = [])) /\
  (forall storage leftover events,
     let commands :=
       vehicle_commands (published_by (spin events) (make_shared storage leftover)) in
     ((ticks events <= 10)%N -> commands = []) /\
     ((10 < ticks events)%N ->
      exists now,
        commands =
        [VehicleCommand.Build now
           (S754_finite false 8388608 (-23)) (S754_finite false 12582912 (-21))
           VEHICLE_CMD_DO_SET_MODE 1 1 1 1 true;
         VehicleCommand.Build now
           (S754_finite false 8388608 (-23)) (S754_zero false)
           VEHICLE_CMD_COMPONENT_ARM_DISARM 1 1 1 1 true])).
Proof.
  split.
  - intros s; cbn zeta. rewrite timer_callback_commands.
    destruct (N.eqb_spec (offboard_setpoint_counter_ s) 10) as [E|E].
    + split; [split; [intros _; exact E | intros _; reflexivity] | congruence].
    + split; [split; [discriminate | congruence] | reflexivity].
  - intros storage leftover events; cbn zeta.
    destruct (spin_commands events (make_shared storage leftover)) as [Hnone Hpair].
    cbn zeta in Hnone, Hpair.
    change (offboard_setpoint_counter_ (make_shared storage leftover)) with 0%N in *.
    split; intro H.
    + apply Hnone; lia.
    + destruct Hpair as [now Hnow]; [lia|]. exists now. exact Hnow.
Qed.

(** C2: whatever the counter is, one timer expiry publishes exactly one
    control-mode declaration and exactly one setpoint message, and the
    declaration has [position] set and the four other flags cleared. *)
Theorem C2_pair_on_every_tick :
  forall s,
    control_modes (published_by timer_callback s) =
      [OffboardControlMode.Build (timestamp_ s) true false false false false] /\
    setpoints (published_by timer_callback s) =
      [TrajectorySetpoint.Build (timestamp_ s)
         (TrajectorySetpoint.x (next_trajectory_setpoint_msg s))
         (TrajectorySetpoint.y (next_trajectory_setpoint_msg s))
         (TrajectorySetpoint.z (next_trajectory_setpoint_msg s))
         (TrajectorySetpoint.yaw (next_trajectory_setpoint_msg s))] /\
    length (control_modes (published_by timer_callback s)) = 1%nat /\
    length (setpoints (published_by timer_callback s)) = 1%nat.
Proof.
  intro s. change timer_callback with (dispatch wall_timer).
  rewrite dispatch_published, control_modes_app, setpoints_app.
  destruct (offboard_setpoint_counter_ s =? 10)%N; repeat split; reflexivity.
Qed.

(** C3: the counter is 0 after construction, whatever its storage held
    before the constructor ran; a timer expiry adds exactly 1
    while it is below 11 and leaves it alone at 11; in every reachable state
    it is at most 11 (it is the number of expiries so far, capped at 11), and
    once it is 11 no further event changes it. *)
Theorem C3_counter_saturates_at_eleven :
  (forall storage leftover,
     offboard_setpoint_counter_ (make_shared storage leftover) = 0%N) /\
  (forall s, (offboard_setpoint_counter_ s < 11)%N ->
     offboard_setpoint_counter_ (state_after timer_callback s)
     = (offboard_setpoint_counter_ s + 1)%N) /\
  (forall s, offboard_setpoint_counter_ s = 11%N ->
     offboard_setpoint_counter_ (state_after timer_callback s) = 11%N) /\
  (forall storage leftover events,
     let reached := state_after (spin events) (make_shared storage leftover) in
     (offboard_setpoint_counter_ reached <= 11)%N /\
     offboard_setpoint_counter_ reached = N.min 11 (ticks events)) /\
  (forall s events, offboard_setpoint_counter_ s = 11%N ->
     offboard_setpoint_counter_ (state_after (spin events) s) = 11%N).
Proof.
  repeat split.
  - intros s H. change timer_callback with (dispatch wall_timer).
    rewrite dispatch_counter.
    destruct (N.ltb_spec (offboard_setpoint_counter_ s) 11); [reflexivity | lia].
  - intros s H. change timer_callback with (dispatch wall_timer).
    rewrite dispatch_counter, H. reflexivity.
  - rewrite spin_counter.
    + apply N.le_min_l.
    + change (offboard_setpoint_counter_ (make_shared storage leftover)) with 0%N. lia.
  - rewrite spin_counter; [reflexivity|].
    change (offboard_setpoint_counter_ (make_shared storage leftover)) with 0%N. lia.
  - intros s events H. rewrite spin_counter; lia.
Qed.

(** ** The command emitter *)

(** C6: a command built by [publish_vehicle_command] carries the current
    [timestamp_], the given code and parameters, 1 as target and source
    system and component, and [from_external] set; [arm] sends
    VEHICLE_CMD_COMPONENT_ARM_DISARM with [param1] 1.0, [disarm] sends the
    same code with [param1] 0.0, and [param2] takes its default 0.0 in both;
    every command published during an execution has these identifiers. *)
Theorem C6_command_emitter :
  (forall command param1 param2 s,
     published_by (publish_vehicle_command command param1 param2) s =
       [VehicleCommand_PubSubTopic
          {| VehicleCommand.timestamp := timestamp_ s;
             VehicleCommand.param1 := param1;
             VehicleCommand.param2 := param2;
             VehicleCommand.command := command;
             VehicleCommand.target_system := 1;
             VehicleCommand.target_component := 1;
             VehicleCommand.source_system := 1;
             VehicleCommand.source_component := 1;
             VehicleCommand.from_external := true |}] /\
     state_after (publish_vehicle_command command param1 param2) s = s) /\
  (forall s,
     published_by arm s =
       [VehicleCommand_PubSubTopic
          {| VehicleCommand.timestamp := timestamp_ s;
             VehicleCommand.param1 := S754_finite false 8388608 (-23);
             VehicleCommand.param2 := S754_zero false;
             VehicleCommand.command := VEHICLE_CMD_COMPONENT_ARM_DISARM;
             VehicleCommand.target_system := 1;
             VehicleCommand.target_component := 1;
             VehicleCommand.source_system := 1;
             VehicleCommand.source_component := 1;
             VehicleCommand.from_external := true |}]) /\
  (forall s,
     published_by disarm s =
       [VehicleCommand_PubSubTopic
          {| VehicleCommand.timestamp := timestamp_ s;
             VehicleCommand.param1 := S754_zero false;
             VehicleCommand.param2 := S754_zero false;
             VehicleCommand.command := VEHICLE_CMD_COMPONENT_ARM_DISARM;
             VehicleCommand.target_system := 1;
             VehicleCommand.target_component := 1;
             VehicleCommand.source_system := 1;
             VehicleCommand.source_component := 1;
             VehicleCommand.from_external := true |}]) /\
  Float.denotes (S754_finite false 8388608 (-23)) 1 /\
  (forall s,
     Forall (fun m =>
               VehicleCommand.timestamp m = timestamp_ s /\
               VehicleCommand.target_system m = 1%N /\
               VehicleCommand.target_component m = 1%N /\
               VehicleCommand.source_system m = 1%N /\
               VehicleCommand.source_component m = 1%N /\
               VehicleCommand.from_external m = true)
       (vehicle_commands (published_by timer_callback s))).
Proof.
  repeat split.
  intro s. rewrite timer_callback_commands.
  destruct (offboard_setpoint_counter_ s =? 10)%N;
    repeat constructor.
Qed.

(** ** The setpoint store and its ingest *)

(** C4 (amended): as long as no pose has been received, every setpoint
    message published has x = 0.0, y = 0.0, z = -1.0 and, for yaw, the
    single-precision value nearest to the literal -3.14, which is
    -13170115 / 2^22; that value is within half a unit in the last place of
    -3.14. *)
Theorem C4_default_setpoint_until_first_pose :
  Float.denotes (S754_finite true 8388608 (-23)) (-1) /\
  Float.denotes (S754_finite true 13170115 (-22)) (-13170115 # 4194304) /\
  ((-314 # 100) - (1 # 8388608) <= -13170115 # 4194304
   /\ -13170115 # 4194304 <= (-314 # 100) + (1 # 8388608))%Q /\
  (forall storage leftover events,
     forallb (fun e => negb (is_pose e)) events = true ->
     Forall (fun m =>
               TrajectorySetpoint.x m = S754_zero false /\
               TrajectorySetpoint.y m = S754_zero false /\
               TrajectorySetpoint.z m = S754_finite true 8388608 (-23) /\
               TrajectorySetpoint.yaw m = S754_finite true 13170115 (-22))
       (setpoints (published_by (spin events) (make_shared storage leftover)))).
Proof.
  split; [reflexivity|]. split; [reflexivity|].
  split; [split; unfold Qle; cbn; lia|].
  intros storage leftover events H.
  eapply Forall_impl; [| apply spin_setpoints_without_pose; exact H].
  intros m (Hx & Hy & Hz & Hyaw). rewrite Hx, Hy, Hz, Hyaw.
  repeat split; reflexivity.
Qed.

(** C5 (amended): for every incoming pose the ingest handler stores x and
    y as the incoming x and y converted to single precision, z as the negation
    of the incoming z converted to single precision, and yaw as one constant;
    the orientation has no influence; a coordinate that is representable in
    single precision is stored as the same number, any other is rounded; for
    the position (2.0, -3.0, 5.0) the stored setpoint has x = 2.0, y = -3.0,
    z = -5.0. *)
Theorem C5_ingest_rounds_and_flips_z :
  (forall msg s,
     let position := Pose.position (PoseStamped.pose msg) in
     let stored :=
       next_trajectory_setpoint_msg (state_after (update_target_setpoint_cb msg) s) in
     TrajectorySetpoint.x stored = Float.to_float32 (Point.x position) /\
     TrajectorySetpoint.y stored = Float.to_float32 (Point.y position) /\
     TrajectorySetpoint.z stored = Float.neg (Float.to_float32 (Point.z position)) /\
     TrajectorySetpoint.yaw stored = S754_finite true 13170115 (-22)) /\
  (forall position orientation orientation' s,
     state_after (update_target_setpoint_cb
                    (PoseStamped.Build (Pose.Build position orientation))) s =
     state_after (update_target_setpoint_cb
                    (PoseStamped.Build (Pose.Build position orientation'))) s) /\
  (forall f fz orientation s,
     valid_binary Float.prec32 Float.emax32 f = true ->
     valid_binary Float.prec32 Float.emax32 fz = true ->
     let position := Point.Build (Float.to_double f) (Float.to_double f)
                                 (Float.to_double fz) in
     let stored :=
       next_trajectory_setpoint_msg
         (state_after (update_target_setpoint_cb
                         (PoseStamped.Build (Pose.Build position orientation))) s) in
     Float.same_number (Point.x position) f /\
     Float.same_number (Point.z position) fz /\
     TrajectorySetpoint.x stored = f /\
     TrajectorySetpoint.y stored = f /\
     TrajectorySetpoint.z stored = Float.neg fz) /\
  (forall orientation s,
     let position :=
       Point.Build (Float.double_of_Z 2) (Float.neg (Float.double_of_Z 3))
                   (Float.double_of_Z 5) in
     let stored :=
       next_trajectory_setpoint_msg
         (state_after (update_target_setpoint_cb
                         (PoseStamped.Build (Pose.Build position orientation))) s) in
     Float.denotes (TrajectorySetpoint.x stored) 2 /\
     Float.denotes (TrajectorySetpoint.y stored) (-3) /\
     Float.denotes (TrajectorySetpoint.z stored) (-5)).
Proof.
  split; [|split; [|split]].
  - intros msg s; cbn zeta. unfold state_after.
    rewrite update_target_setpoint_cb_eq.
    cbn [fst snd next_trajectory_setpoint_msg TrajectorySetpoint.x
         TrajectorySetpoint.y TrajectorySetpoint.z TrajectorySetpoint.yaw].
    rewrite to_float32_neg. repeat split; reflexivity.
  - reflexivity.
  - intros f fz orientation s Hf Hfz; cbn zeta. unfold state_after.
    rewrite update_target_setpoint_cb_eq.
    cbn [fst snd next_trajectory_setpoint_msg TrajectorySetpoint.x
         TrajectorySetpoint.y TrajectorySetpoint.z PoseStamped.pose
         Pose.position Point.x Point.y Point.z].
    destruct (float_double_float f Hf) as [Ef Nf].
    destruct (float_double_float fz Hfz) as [Efz Nfz].
    rewrite to_float32_neg, Ef, Efz. repeat split; assumption.
  - intros orientation s; cbn zeta. unfold state_after.
    rewrite update_target_setpoint_cb_eq.
    cbn [fst snd next_trajectory_setpoint_msg TrajectorySetpoint.x
         TrajectorySetpoint.y TrajectorySetpoint.z PoseStamped.pose
         Pose.position Point.x Point.y Point.z].
    repeat split; reflexivity.
Qed.

(** C9: the ingest handler replaces the stored setpoint as a whole: the
    new setpoint is a function of the pose and of the current [timestamp_]
    only, so nothing of the previous setpoint survives, and handling the same
    pose twice in a row leaves the node in the state it has after handling it
    once. *)
Theorem C9_ingest_replaces_and_is_idempotent :
  (forall msg s,
     state_after (update_target_setpoint_cb msg ;; update_target_setpoint_cb msg) s
     = state_after (update_target_setpoint_cb msg) s) /\
  (forall msg s,
     state_after (spin [next_trajectory_setpoint msg; next_trajectory_setpoint msg]) s
     = state_after (spin [next_trajectory_setpoint msg]) s) /\
  (forall msg s1 s2,
     timestamp_ s1 = timestamp_ s2 ->
     next_trajectory_setpoint_msg (state_after (update_target_setpoint_cb msg) s1)
     = next_trajectory_setpoint_msg (state_after (update_target_setpoint_cb msg) s2)).
Proof.
  split; [|split].
  - intros msg s. rewrite state_after_bind. unfold state_after.
    rewrite !update_target_setpoint_cb_eq. reflexivity.
  - intros msg s. rewrite !state_after_spin_cons.
    unfold state_after, dispatch, spin, ret.
    rewrite !update_target_setpoint_cb_eq. reflexivity.
  - intros msg s1 s2 H. unfold state_after.
    rewrite !update_target_setpoint_cb_eq.
    cbn [fst snd next_trajectory_setpoint_msg]. rewrite H. reflexivity.
Qed.

(** C10: a setpoint message takes its time stamp from [timestamp_] when it
    is published, and the time stamp kept inside the stored setpoint reaches
    no publisher: two states that differ in that field only publish the same
    messages along every execution. *)
Theorem C10_stored_stamp_never_published :
  (forall s,
     published_by publish_trajectory_setpoint s =
     [TrajectorySetpoint_PubSubTopic
        (TrajectorySetpoint.Build (timestamp_ s)
           (TrajectorySetpoint.x (next_trajectory_setpoint_msg s))
           (TrajectorySetpoint.y (next_trajectory_setpoint_msg s))
           (TrajectorySetpoint.z (next_trajectory_setpoint_msg s))
           (TrajectorySetpoint.yaw (next_trajectory_setpoint_msg s)))]) /\
  (forall events s1 s2,
     same_but_setpoint_stamp s1 s2 ->
     published_by (spin events) s1 = published_by (spin events) s2).
Proof.
  split; [reflexivity|].
  induction events as [|e events IH]; intros s1 s2 H.
  - reflexivity.
  - rewrite !published_by_spin_cons.
    destruct (dispatch_same_but_setpoint_stamp e s1 s2 H) as [Hout Hnext].
    rewrite Hout, (IH _ _ Hnext). reflexivity.
Qed.

(** ** The time reference *)

(** C7 (amended): a read of [timestamp_] returns the value of the last
    time-sync event received (the start-up content when there was none), so
    every message published by a callback carries exactly that value and
    none carries an older one; the stamps of the published messages never
    decrease provided the received sync values, preceded by the start-up
    content, never decrease. *)
Theorem C7_stamps_follow_last_sync :
  (forall storage leftover events,
     timestamp_ (state_after (spin events) (make_shared storage leftover))
     = last_sync storage events) /\
  (forall storage leftover before e,
     Forall (fun p => stamp p = last_sync storage before)
       (published_by (dispatch e)
          (state_after (spin before) (make_shared storage leftover)))) /\
  (forall storage leftover events,
     non_decreasing (storage :: sync_values events) ->
     non_decreasing (map stamp (published_by (spin events) (make_shared storage leftover)))).
Proof.
  split; [|split].
  - intros storage leftover events. apply spin_timestamp.
  - intros storage leftover before e.
    pose proof (spin_timestamp before (make_shared storage leftover)) as E.
    change (timestamp_ (make_shared storage leftover)) with storage in E.
    rewrite <- E. apply dispatch_stamps.
  - intros storage leftover events H.
    apply non_decreasing_tail with (a := storage).
    apply (spin_stamps_non_decreasing events (make_shared storage leftover)). exact H.
Qed.

(** C8: before the first time-sync event every published message carries
    the content that the storage of [timestamp_] had when the object was
    created; the constructor never writes that member, so the stamp is 0
    only if that storage happened to hold 0. *)
Theorem C8_unsynced_stamp_is_storage_content :
  forall storage leftover events,
    sync_values events = [] ->
    Forall (fun p => stamp p = storage)
      (published_by (spin events) (make_shared storage leftover)).
Proof.
  intros storage leftover events H.
  apply (spin_stamps_unsynced events (make_shared storage leftover) H).
Qed.

(** ** Further properties of whole executions *)

Lemma in_vehicle_commands m out :
  In (VehicleCommand_PubSubTopic m) out -> In m (vehicle_commands out).
Proof.
  induction out as [|p out IH]; cbn [In]; [tauto|].
  intros [H|H].
  - subst p. left. reflexivity.
  - destruct p; cbn [vehicle_commands In]; auto.
Qed.

Lemma published_length out :
  length out =
  (length (vehicle_commands out) + length (control_modes out)
   + length (setpoints out))%nat.
Proof.
  induction out as [|[m|m|m] out IH];
    cbn [length vehicle_commands control_modes setpoints]; lia.
Qed.

Lemma spin_pair_counts events s :
  N.of_nat (length (control_modes (published_by (spin events) s))) = ticks events /\
  N.of_nat (length (setpoints (published_by (spin events) s))) = ticks events.
Proof.
  revert s; induction events as [|e events IH]; intro s.
  - split; reflexivity.
  - rewrite published_by_spin_cons, control_modes_app, setpoints_app, !length_app.
    destruct (IH (state_after (dispatch e) s)) as [IHc IHs].
    rewrite dispatch_published.
    destruct e as [t|msg|]; cbn [ticks app control_modes setpoints length];
      try (split; assumption).
    rewrite control_modes_app, setpoints_app, !length_app.
    destruct (offboard_setpoint_counter_ s =? 10)%N;
      cbn [control_modes setpoints length app]; lia.
Qed.

(** The node publishes in the timer callback only: a run publishes one
    control-mode declaration and one setpoint per timer expiry, whatever the
    state it starts in, and from start-up the total number of messages is
    twice the number of expiries, plus the two commands once there are more
    than ten. *)
Theorem messages_per_run :
  (forall events s,
     N.of_nat (length (control_modes (published_by (spin events) s))) = ticks events /\
     N.of_nat (length (setpoints (published_by (spin events) s))) = ticks events) /\
  (forall storage leftover events,
     N.of_nat (length (published_by (spin events) (make_shared storage leftover)))
     = (2 * ticks events + if 10 <? ticks events then 2 else 0)%N).
Proof.
  split; [exact spin_pair_counts|].
  intros storage leftover events. rewrite published_length.
  destruct (spin_pair_counts events (make_shared storage leftover)) as [Hc Hs].
  destruct (spin_commands events (make_shared storage leftover)) as [Hnone Hpair].
  cbn zeta in Hnone, Hpair.
  change (offboard_setpoint_counter_ (make_shared storage leftover)) with 0%N in *.
  destruct (N.ltb_spec 10 (ticks events)) as [L|L].
  - destruct Hpair as [now Hnow]; [lia|]. rewrite Hnow. cbn [length]. lia.
  - rewrite Hnone by lia. cbn [length]. lia.
Qed.

(** In every run the n-th control-mode declaration and the n-th setpoint
    message carry the same time stamp. *)
Theorem paired_messages_share_stamp :
  forall events s,
    map OffboardControlMode.timestamp (control_modes (published_by (spin events) s))
    = map TrajectorySetpoint.timestamp (setpoints (published_by (spin events) s)).
Proof.
  induction events as [|e events IH]; intro s.
  - reflexivity.
  - rewrite published_by_spin_cons, control_modes_app, setpoints_app, !map_app, IH.
    f_equal. rewrite dispatch_published.
    destruct e as [t|msg|]; try reflexivity.
    rewrite control_modes_app, setpoints_app.
    destruct (offboard_setpoint_counter_ s =? 10)%N; reflexivity.
Qed.

Lemma spin_handshake_position events s :
  (offboard_setpoint_counter_ s <= 10)%N ->
  (10 < offboard_setpoint_counter_ s + ticks events)%N ->
  exists pre post now,
    published_by (spin events) s =
      pre ++
      [VehicleCommand_PubSubTopic
         (VehicleCommand.Build now (Float.float_of_Z 1) (Float.float_of_Z 6)
            VEHICLE_CMD_DO_SET_MODE 1 1 1 1 true);
       VehicleCommand_PubSubTopic
         (VehicleCommand.Build now (Float.to_float32 (Float.double_of_Z 1))
            default_param VEHICLE_CMD_COMPONENT_ARM_DISARM 1 1 1 1 true)]
      ++ post /\
    vehicle_commands pre = [] /\
    vehicle_commands post = [] /\
    N.of_nat (length (control_modes pre)) = (10 - offboard_setpoint_counter_ s)%N /\
    N.of_nat (length (setpoints pre)) = (10 - offboard_setpoint_counter_ s)%N.
Proof.
  revert s; induction events as [|e events IH]; intros s Hle Hlt.
  - cbn [ticks] in Hlt. lia.
  - rewrite published_by_spin_cons, dispatch_published.
    specialize (IH (state_after (dispatch e) s)).
    pose proof (spin_commands events (state_after (dispatch e) s)) as [Hnone _].
    cbn zeta in Hnone.
    rewrite dispatch_counter in IH, Hnone.
    destruct e as [t|msg|]; cbn [ticks] in Hlt; cbn [app];
      try (apply IH; assumption).
    destruct (N.eqb_spec (offboard_setpoint_counter_ s) 10) as [E|E];
      destruct (N.ltb_spec (offboard_setpoint_counter_ s) 11) as [L|L]; try lia.
    + eexists [], _, (timestamp_ s). cbn [app].
      split; [reflexivity|]. split; [reflexivity|].
      cbn [vehicle_commands control_modes setpoints length].
      rewrite E. split; [apply Hnone; lia|]. split; reflexivity.
    + destruct IH as (pre & post & now & Hout & Hpre & Hpost & Hc & Hs); [lia|lia|].
      rewrite Hout. cbn [app].
      eexists (_ :: _ :: pre), post, now. cbn [app].
      split; [reflexivity|]. cbn [vehicle_commands control_modes setpoints length].
      repeat split; try assumption; lia.
Qed.

(** From start-up, exactly ten control-mode declarations and ten setpoint
    messages are published before the mode-change command, no command comes
    before or after the pair, and the two commands are adjacent. *)
Theorem ten_pairs_before_handshake :
  forall storage leftover events,
    (10 < ticks events)%N ->
    exists pre post now,
      published_by (spin events) (make_shared storage leftover) =
        pre ++
        [VehicleCommand_PubSubTopic
           (VehicleCommand.Build now (S754_finite false 8388608 (-23))
              (S754_finite false 12582912 (-21))
              VEHICLE_CMD_DO_SET_MODE 1 1 1 1 true);
         VehicleCommand_PubSubTopic
           (VehicleCommand.Build now (S754_finite false 8388608 (-23))
              (S754_zero false) VEHICLE_CMD_COMPONENT_ARM_DISARM 1 1 1 1 true)]
        ++ post /\
      vehicle_commands pre = [] /\
      vehicle_commands post = [] /\
      length (control_modes pre) = 10%nat /\
      length (setpoints pre) = 10%nat.
Proof.
  intros storage leftover events H.
  destruct (spin_handshake_position events (make_shared storage leftover))
    as (pre & post & now & Hout & Hpre & Hpost & Hc & Hs).
  - change (offboard_setpoint_counter_ (make_shared storage leftover)) with 0%N. lia.
  - change (offboard_setpoint_counter_ (make_shared storage leftover)) with 0%N. lia.
  - change (offboard_setpoint_counter_ (make_shared storage leftover)) with 0%N in Hc, Hs.
    exists pre, post, now. split; [exact Hout|].
    repeat split; try assumption; lia.
Qed.

Lemma spin_command_params events s :
  Forall (fun m => VehicleCommand.param1 m = S754_finite false 8388608 (-23))
    (vehicle_commands (published_by (spin events) s)).
Proof.
  revert s; induction events as [|e events IH]; intro s.
  - constructor.
  - rewrite published_by_spin_cons, vehicle_commands_app. apply Forall_app.
    split; [|apply IH].
    rewrite dispatch_published. destruct e; [constructor | constructor |].
    rewrite vehicle_commands_app.
    destruct (offboard_setpoint_counter_ s =? 10)%N; repeat constructor.
Qed.

(** No run ever publishes what [disarm] publishes: every command sent by a
    callback has [param1] 1.0, the disarm command has [param1] 0.0. *)
Theorem spin_never_disarms :
  forall events s s' p,
    In p (published_by (spin events) s) -> ~ In p (published_by disarm s').
Proof.
  intros events s s' p Hin Hdis.
  unfold published_by, disarm in Hdis.
  rewrite publish_vehicle_command_eq in Hdis. cbn [snd] in Hdis.
  destruct Hdis as [Hp|[]]. subst p.
  apply in_vehicle_commands in Hin.
  pose proof (spin_command_params events s) as H.
  rewrite Forall_forall in H. specialize (H _ Hin).
  cbn [VehicleCommand.param1] in H. discriminate H.
Qed.

Lemma spin_yaw events s :
  TrajectorySetpoint.yaw (next_trajectory_setpoint_msg s)
  = Float.to_float32 yaw_literal ->
  Forall (fun m => TrajectorySetpoint.yaw m = Float.to_float32 yaw_literal)
    (setpoints (published_by (spin events) s)).
Proof.
  revert s; induction events as [|e events IH]; intros s H.
  - constructor.
  - rewrite published_by_spin_cons, setpoints_app. apply Forall_app. split.
    + rewrite dispatch_published. destruct e; [constructor | constructor |].
      rewrite setpoints_app.
      destruct (offboard_setpoint_counter_ s =? 10)%N;
        cbn [setpoints app]; repeat constructor; exact H.
    + apply IH. rewrite dispatch_setpoint. destruct e; [exact H | reflexivity | exact H].
Qed.

(** Whatever poses and time-sync values arrive, every setpoint message the
    node publishes has the same yaw, the single-precision value of the literal
    -3.14. *)
Theorem published_yaw_is_constant :
  forall storage leftover events,
    Forall (fun m => TrajectorySetpoint.yaw m = S754_finite true 13170115 (-22))
      (setpoints (published_by (spin events) (make_shared storage leftover))).
Proof.
  intros storage leftover events.
  apply (spin_yaw events (make_shared storage leftover)). reflexivity.
Qed.

(** After a pose has been handled the stored setpoint is made of the time
    reference at that moment and the converted position, whatever came before;
    later time-sync events and timer expiries leave it as it is, so its time
    stamp stays behind the time reference. *)
Theorem stored_setpoint_after_pose :
  forall storage leftover before msg after,
    forallb (fun e => negb (is_pose e)) after = true ->
    next_trajectory_setpoint_msg
      (state_after (spin (before ++ next_trajectory_setpoint msg :: after))
         (make_shared storage leftover))
    = TrajectorySetpoint.Build (last_sync storage before)
        (Float.to_float32 (Point.x (Pose.position (PoseStamped.pose msg))))
        (Float.to_float32 (Point.y (Pose.position (PoseStamped.pose msg))))
        (Float.neg (Float.to_float32 (Point.z (Pose.position (PoseStamped.pose msg)))))
        (S754_finite true 13170115 (-22)).
Proof.
  intros storage leftover before msg after H.
  rewrite state_after_spin_app, state_after_spin_cons.
  rewrite spin_setpoint_without_pose by exact H.
  rewrite dispatch_setpoint, spin_timestamp, to_float32_neg. reflexivity.
Qed.

Lemma state_after_spin_nil s : state_after (spin []) s = s.
Proof. reflexivity. Qed.

(** The setpoint messages published after the last pose carry that pose:
    x and y converted to single precision, z converted and negated. *)
Theorem setpoints_follow_last_pose :
  forall storage leftover before msg after,
    forallb (fun e => negb (is_pose e)) after = true ->
    Forall (fun m =>
              TrajectorySetpoint.x m
              = Float.to_float32 (Point.x (Pose.position (PoseStamped.pose msg))) /\
              TrajectorySetpoint.y m
              = Float.to_float32 (Point.y (Pose.position (PoseStamped.pose msg))) /\
              TrajectorySetpoint.z m
              = Float.neg (Float.to_float32
                             (Point.z (Pose.position (PoseStamped.pose msg)))))
      (setpoints
         (published_by (spin after)
            (state_after (spin (before ++ [next_trajectory_setpoint msg]))
               (make_shared storage leftover)))).
Proof.
  intros storage leftover before msg after H.
  eapply Forall_impl; [| apply spin_setpoints_without_pose; exact H].
  intros m (Hx & Hy & Hz & _). rewrite Hx, Hy, Hz.
  rewrite state_after_spin_app, state_after_spin_cons, state_after_spin_nil.
  rewrite dispatch_setpoint, to_float32_neg. repeat split; reflexivity.
Qed.

(** Once the counter has reached 11 (or holds any larger value) a timer
    expiry leaves the node exactly as it was and publishes the control-mode
    declaration and the setpoint, nothing else. *)
Theorem streaming_is_steady :
  forall s n,
    (11 <= offboard_setpoint_counter_ s)%N ->
    state_after (spin (repeat wall_timer n)) s = s /\
    published_by (spin (repeat wall_timer n)) s =
    concat (repeat
              [OffboardControlMode_PubSubTopic
                 (OffboardControlMode.Build (timestamp_ s) true false false false false);
               TrajectorySetpoint_PubSubTopic
                 (TrajectorySetpoint.Build (timestamp_ s)
                    (TrajectorySetpoint.x (next_trajectory_setpoint_msg s))
                    (TrajectorySetpoint.y (next_trajectory_setpoint_msg s))
                    (TrajectorySetpoint.z (next_trajectory_setpoint_msg s))
                    (TrajectorySetpoint.yaw (next_trajectory_setpoint_msg s)))]
              n).
Proof.
  intros s n H.
  assert (Hstep : state_after (dispatch wall_timer) s = s).
  { unfold state_after, dispatch. rewrite timer_callback_eq. cbn [fst snd].
    destruct (N.ltb_spec (offboard_setpoint_counter_ s) 11) as [L|L]; [lia|].
    destruct s; reflexivity. }
  induction n as [|n [IHs IHp]].
  - split; reflexivity.
  - cbn [repeat concat].
    rewrite state_after_spin_cons, published_by_spin_cons, Hstep, IHs, IHp.
    split; [reflexivity|]. rewrite dispatch_published.
    destruct (N.eqb_spec (offboard_setpoint_counter_ s) 10) as [E|E]; [lia|].
    reflexivity.
Qed.

Lemma spin_stream_same_store events s1 s2 :
  timestamp_ s1 = timestamp_ s2 ->
  next_trajectory_setpoint_msg s1 = next_trajectory_setpoint_msg s2 ->
  control_modes (published_by (spin events) s1)
  = control_modes (published_by (spin events) s2) /\
  setpoints (published_by (spin events) s1)
  = setpoints (published_by (spin events) s2).
Proof.
  revert s1 s2; induction events as [|e events IH]; intros s1 s2 Ht Hn.
  - split; reflexivity.
  - rewrite !published_by_spin_cons, !control_modes_app, !setpoints_app.
    destruct (IH (state_after (dispatch e) s1) (state_after (dispatch e) s2))
      as [IHc IHs].
    + rewrite !dispatch_timestamp, Ht. reflexivity.
    + rewrite !dispatch_setpoint, Ht, Hn. reflexivity.
    + rewrite IHc, IHs, !dispatch_published.
      destruct e as [t|msg|]; try (split; reflexivity).
      rewrite !control_modes_app, !setpoints_app, Ht, Hn.
      destruct (offboard_setpoint_counter_ s1 =? 10)%N;
        destruct (offboard_setpoint_counter_ s2 =? 10)%N; split; reflexivity.
Qed.

(** The handshake does not disturb the stream: the control-mode
    declarations and the setpoint messages of a run are the same whatever the
    counter holds when the run starts. *)
Theorem stream_ignores_counter :
  forall events s counter,
    let s' := Build_OffboardCommander (timestamp_ s) counter
                (next_trajectory_setpoint_msg s) in
    control_modes (published_by (spin events) s')
    = control_modes (published_by (spin events) s) /\
    setpoints (published_by (spin events) s')
    = setpoints (published_by (spin events) s).
Proof.
  intros events s counter; cbn zeta.
  apply spin_stream_same_store; reflexivity.
Qed.

(** Nothing filters the incoming position: a NaN and infinities are stored
    and then published as they came, the vertical infinity with its sign
    flipped. *)
Theorem non_finite_pose_is_published :
  forall storage leftover before sy sz orientation after,
    forallb (fun e => negb (is_pose e)) after = true ->
    let msg :=
      PoseStamped.Build
        (Pose.Build (Point.Build S754_nan (S754_infinity sy) (S754_infinity sz))
                    orientation) in
    Forall (fun m =>
              TrajectorySetpoint.x m = S754_nan /\
              TrajectorySetpoint.y m = S754_infinity sy /\
              TrajectorySetpoint.z m = S754_infinity (negb sz))
      (setpoints
         (published_by (spin after)
            (state_after (spin (before ++ [next_trajectory_setpoint msg]))
               (make_shared storage leftover)))).
Proof.
  intros storage leftover before sy sz orientation after H; cbn zeta.
  eapply Forall_impl; [| apply spin_setpoints_without_pose; exact H].
  intros m (Hx & Hy & Hz & _). rewrite Hx, Hy, Hz.
  rewrite state_after_spin_app, state_after_spin_cons, state_after_spin_nil.
  rewrite dispatch_setpoint. repeat split; reflexivity.
Qed.

End Commander.

(** ** Concrete executions

    The runs below take 176 and 400 for VEHICLE_CMD_DO_SET_MODE and
    VEHICLE_CMD_COMPONENT_ARM_DISARM, their MAVLink numbers. *)

(** A lower bound on pi from the first terms of Machin's series for
    2 atan (1/3) + atan (1/7). *)
Lemma PI_above_31415 : (31415 / 10000 < PI)%R.
Proof.
  generalize (PI_2_3_7_ineq 1).
  unfold sum_f_R0, tg_alt, PI_2_3_7_tg, Ratan_seq.
  simpl. lra.
Qed.

(** C4, as stated, fails on yaw: the first setpoint message of a node that
    never received a pose has yaw -13170115 / 2^22 = -3.1400001..., which lies
    more than a thousandth above -pi. *)
Lemma C4_published_yaw_is_not_minus_pi :
  exists m,
    setpoints (published_by (spin 176 400 [wall_timer]) (make_shared 0 3)) = [m] /\
    Float.to_Q (TrajectorySetpoint.yaw m) = Some (-13170115 # 4194304) /\
    (Q2R (-13170115 # 4194304) > - PI + 1 / 1000)%R /\
    (Q2R (-13170115 # 4194304) <> - PI)%R.
Proof.
  eexists. split; [reflexivity|]. split; [reflexivity|].
  assert (H : (Q2R (-13170115 # 4194304) > - PI + 1 / 1000)%R).
  { generalize PI_above_31415. unfold Q2R. simpl. lra. }
  split; [exact H | lra].
Qed.

(** C5, as stated, fails on x: the incoming [double] 0.1 is stored as the
    [float] 0.1f, a different number. *)
Lemma C5_stored_x_differs_from_incoming_x :
  let msg :=
    PoseStamped.Build
      (Pose.Build
         (Point.Build (Float.double_of_decimal 1 10) (Float.double_of_Z 0)
                      (Float.double_of_Z 0))
         (Quaternion.Build (Float.double_of_Z 0) (Float.double_of_Z 0)
                           (Float.double_of_Z 0) (Float.double_of_Z 1))) in
  let incoming := Point.x (Pose.position (PoseStamped.pose msg)) in
  let stored :=
    TrajectorySetpoint.x
      (next_trajectory_setpoint_msg
         (state_after (update_target_setpoint_cb msg) (make_shared 0 3))) in
  incoming = S754_finite false 7205759403792794 (-56) /\
  stored = S754_finite false 13421773 (-27) /\
  ~ Float.same_number stored incoming.
Proof.
  cbn zeta. split; [reflexivity|]. split; [reflexivity|].
  vm_compute. discriminate.
Qed.

(** C7, as stated, fails: a time-sync event with a smaller value than the
    one before it makes the next messages carry the smaller value. *)
Lemma C7_stamps_decrease_after_smaller_sync :
  map stamp
    (published_by
       (spin 176 400
          [Timesync_PubSubTopic 100; wall_timer; Timesync_PubSubTopic 50; wall_timer])
       (make_shared 0 3))
  = [100; 100; 50; 50]%N /\
  ~ non_decreasing
      (map stamp
         (published_by
            (spin 176 400
               [Timesync_PubSubTopic 100; wall_timer; Timesync_PubSubTopic 50; wall_timer])
            (make_shared 0 3))).
Proof.
  split; [reflexivity|].
  vm_compute. intros (_ & H & _). apply H. reflexivity.
Qed.

(** C8 at a start-up with 5 in the storage of [timestamp_]: the eleven
    first timer expiries publish 24 messages, none stamped 0. *)
Lemma C8_unsynced_stamp_5 :
  sync_values (repeat wall_timer 11) = [] /\
  Forall (fun p => stamp p = 5%N)
    (published_by (spin 176 400 (repeat wall_timer 11)) (make_shared 5 3)) /\
  map stamp (published_by (spin 176 400 [wall_timer]) (make_shared 5 3)) = [5; 5]%N.
Proof.
  split; [reflexivity|]. split; [|reflexivity].
  apply (C8_unsynced_stamp_is_storage_content 176 400 5 3 (repeat wall_timer 11)).
  reflexivity.
Defined.

(** The handshake theorem at work: counter 10 and counter 11 on entry, and
    runs of 10 and of 40 timer expiries from start-up. *)
Lemma C1_handshake_run :
  vehicle_commands
    (published_by (timer_callback 176 400)
       (Build_OffboardCommander 7 10 TrajectorySetpoint.zero))
  = [VehicleCommand.Build 7 (S754_finite false 8388608 (-23))
       (S754_finite false 12582912 (-21)) 176 1 1 1 1 true;
     VehicleCommand.Build 7 (S754_finite false 8388608 (-23))
       (S754_zero false) 400 1 1 1 1 true] /\
  vehicle_commands
    (published_by (timer_callback 176 400)
       (Build_OffboardCommander 7 11 TrajectorySetpoint.zero)) = [] /\
  vehicle_commands
    (published_by (spin 176 400 (repeat wall_timer 10)) (make_shared 0 3)) = [] /\
  exists now,
    vehicle_commands
      (published_by (spin 176 400 (repeat wall_timer 40)) (make_shared 0 3))
    = [VehicleCommand.Build now (S754_finite false 8388608 (-23))
         (S754_finite false 12582912 (-21)) 176 1 1 1 1 true;
       VehicleCommand.Build now (S754_finite false 8388608 (-23))
         (S754_zero false) 400 1 1 1 1 true].
Proof.
  pose proof (C1_handshake_only_at_ten 176 400) as [Htick Hrun].
  split; [|split; [|split]].
  - apply (proj1 (Htick (Build_OffboardCommander 7 10 TrajectorySetpoint.zero))).
    reflexivity.
  - apply (proj2 (Htick (Build_OffboardCommander 7 11 TrajectorySetpoint.zero))).
    discriminate.
  - apply (proj1 (Hrun 0%N 3%N (repeat wall_timer 10))). discriminate.
  - apply (proj2 (Hrun 0%N 3%N (repeat wall_timer 40))). reflexivity.
Defined.

(** The counter theorem at work: 0 after construction on storage that held 7,
    from 4 to 5, held at 11, and still 11 after 40 more expiries. *)
Lemma C3_counter_run :
  offboard_setpoint_counter_ (make_shared 5 7) = 0%N /\
  offboard_setpoint_counter_
    (state_after (timer_callback 176 400)
       (Build_OffboardCommander 0 4 TrajectorySetpoint.zero)) = 5%N /\
  offboard_setpoint_counter_
    (state_after (timer_callback 176 400)
       (Build_OffboardCommander 0 11 TrajectorySetpoint.zero)) = 11%N /\
  offboard_setpoint_counter_
    (state_after (spin 176 400 (repeat wall_timer 40))
       (Build_OffboardCommander 0 11 TrajectorySetpoint.zero)) = 11%N.
Proof.
  pose proof (C3_counter_saturates_at_eleven 176 400)
    as (Hstart & Hincr & Hhold & _ & Hfrozen).
  split; [|split; [|split]].
  - apply (Hstart 5%N 7%N).
  - apply (Hincr (Build_OffboardCommander 0 4 TrajectorySetpoint.zero)). reflexivity.
  - apply (Hhold (Build_OffboardCommander 0 11 TrajectorySetpoint.zero)). reflexivity.
  - apply (Hfrozen (Build_OffboardCommander 0 11 TrajectorySetpoint.zero)). reflexivity.
Defined.

(** The default setpoint in a run with two expiries around a time-sync. *)
Lemma C4_default_setpoint_run :
  Forall (fun m =>
            TrajectorySetpoint.x m = S754_zero false /\
            TrajectorySetpoint.y m = S754_zero false /\
            TrajectorySetpoint.z m = S754_finite true 8388608 (-23) /\
            TrajectorySetpoint.yaw m = S754_finite true 13170115 (-22))
    (setpoints
       (published_by
          (spin 176 400 [wall_timer; Timesync_PubSubTopic 9; wall_timer])
          (make_shared 0 3))).
Proof.
  apply (proj2 (proj2 (proj2 (C4_default_setpoint_until_first_pose 176 400)))).
  reflexivity.
Defined.

(** With sync values 3 then 8 after start-up content 0 the stamps never
    decrease. *)
Lemma C7_stamps_run :
  non_decreasing
    (map stamp
       (published_by
          (spin 176 400
             [Timesync_PubSubTopic 3; wall_timer; Timesync_PubSubTopic 8; wall_timer])
          (make_shared 0 3))).
Proof.
  apply (proj2 (proj2 (C7_stamps_follow_last_sync 176 400))).
  vm_compute. repeat split; discriminate.
Defined.

(** Two nodes with the same [timestamp_] and different stored setpoints hold
    the same setpoint after the same pose. *)
Lemma C9_ingest_run :
  let msg :=
    PoseStamped.Build
      (Pose.Build
         (Point.Build (Float.double_of_Z 2) (Float.neg (Float.double_of_Z 3))
                      (Float.double_of_Z 5))
         (Quaternion.Build (Float.double_of_Z 0) (Float.double_of_Z 0)
                           (Float.double_of_Z 0) (Float.double_of_Z 1))) in
  next_trajectory_setpoint_msg
    (state_after (update_target_setpoint_cb msg)
       (Build_OffboardCommander 4 0 TrajectorySetpoint.zero))
  = next_trajectory_setpoint_msg
      (state_after (update_target_setpoint_cb msg) (make_shared 4 3)).
Proof.
  cbn zeta. apply (proj2 (proj2 (C9_ingest_replaces_and_is_idempotent 176 400))). reflexivity.
Defined.

(** Stored stamps 1 and 2: twelve expiries publish the same 26 messages. *)
Lemma C10_stored_stamp_run :
  published_by (spin 176 400 (repeat wall_timer 12))
    (Build_OffboardCommander 6 0
       (TrajectorySetpoint.set_timestamp 1 TrajectorySetpoint.zero))
  = published_by (spin 176 400 (repeat wall_timer 12))
      (Build_OffboardCommander 6 0
         (TrajectorySetpoint.set_timestamp 2 TrajectorySetpoint.zero)).
Proof.
  apply (proj2 (C10_stored_stamp_never_published 176 400)).
  repeat split.
Defined.

(** The single-precision values 0.1f and 100.25f come in as [double]s and
    are stored as they are, the vertical one negated. *)
Lemma C5_representable_run :
  let f := S754_finite false 13421773 (-27) in
  let fz := S754_finite false 13139968 (-17) in
  let position := Point.Build (Float.to_double f) (Float.to_double f)
                              (Float.to_double fz) in
  let orientation :=
    Quaternion.Build (Float.double_of_Z 0) (Float.double_of_Z 0)
                     (Float.double_of_Z 0) (Float.double_of_Z 1) in
  let stored :=
    next_trajectory_setpoint_msg
      (state_after (update_target_setpoint_cb
                      (PoseStamped.Build (Pose.Build position orientation)))
         (make_shared 0 3)) in
  Float.same_number (Point.x position) f /\
  Float.same_number (Point.z position) fz /\
  TrajectorySetpoint.x stored = f /\
  TrajectorySetpoint.y stored = f /\
  TrajectorySetpoint.z stored = Float.neg fz.
Proof.
  cbn zeta.
  apply (proj1 (proj2 (proj2 (C5_ingest_rounds_and_flips_z))));
    reflexivity.
Defined.

(** ** The further properties at work *)

(** Forty expiries with a time-sync in between: the pair of commands sits
    after ten control-mode declarations and ten setpoint messages. *)
Lemma ten_pairs_before_handshake_run :
  exists pre post now,
    published_by
      (spin 176 400 (repeat wall_timer 5 ++ Timesync_PubSubTopic 77 :: repeat wall_timer 35))
      (make_shared 0 3) =
      pre ++
      [VehicleCommand_PubSubTopic
         (VehicleCommand.Build now (S754_finite false 8388608 (-23))
            (S754_finite false 12582912 (-21)) 176 1 1 1 1 true);
       VehicleCommand_PubSubTopic
         (VehicleCommand.Build now (S754_finite false 8388608 (-23))
            (S754_zero false) 400 1 1 1 1 true)]
      ++ post /\
    vehicle_commands pre = [] /\
    vehicle_commands post = [] /\
    length (control_modes pre) = 10%nat /\
    length (setpoints pre) = 10%nat.
Proof.
  apply (ten_pairs_before_handshake 176 400 0%N 3%N
           (repeat wall_timer 5 ++ Timesync_PubSubTopic 77 :: repeat wall_timer 35)).
  reflexivity.
Defined.

(** The arm command of the eleventh expiry is not a disarm command. *)
Lemma spin_never_disarms_run :
  let p :=
    VehicleCommand_PubSubTopic
      (VehicleCommand.Build 0 (S754_finite false 8388608 (-23))
         (S754_zero false) 400 1 1 1 1 true) in
  In p (published_by (spin 176 400 (repeat wall_timer 11)) (make_shared 0 3)) /\
  ~ In p (published_by (disarm 400) (make_shared 0 3)).
Proof.
  cbn zeta.
  assert (H : In (VehicleCommand_PubSubTopic
                    (VehicleCommand.Build 0 (S754_finite false 8388608 (-23))
                       (S754_zero false) 400 1 1 1 1 true))
                (published_by (spin 176 400 (repeat wall_timer 11)) (make_shared 0 3))).
  { vm_compute. do 21 right. left. reflexivity. }
  split; [exact H|].
  exact (spin_never_disarms 176 400 (repeat wall_timer 11) (make_shared 0 3)
           (make_shared 0 3) _ H).
Defined.

(** A pose handled at time reference 7, then a time-sync to 9 and an expiry:
    the stored setpoint keeps the stamp 7. *)
Lemma stored_setpoint_after_pose_run :
  let msg :=
    PoseStamped.Build
      (Pose.Build
         (Point.Build (Float.double_of_Z 2) (Float.neg (Float.double_of_Z 3))
                      (Float.double_of_Z 5))
         (Quaternion.Build (Float.double_of_Z 0) (Float.double_of_Z 0)
                           (Float.double_of_Z 0) (Float.double_of_Z 1))) in
  next_trajectory_setpoint_msg
    (state_after
       (spin 176 400
          ([wall_timer; Timesync_PubSubTopic 7]
           ++ next_trajectory_setpoint msg :: [Timesync_PubSubTopic 9; wall_timer]))
       (make_shared 0 3))
  = TrajectorySetpoint.Build 7
      (S754_finite false 8388608 (-22)) (S754_finite true 12582912 (-22))
      (S754_finite true 10485760 (-21)) (S754_finite true 13170115 (-22)).
Proof.
  intro msg.
  exact (stored_setpoint_after_pose 176 400 0%N 3%N
           [wall_timer; Timesync_PubSubTopic 7] msg
           [Timesync_PubSubTopic 9; wall_timer] eq_refl).
Defined.

(** The setpoint messages of two expiries that follow the pose (2, -3, 5). *)
Lemma setpoints_follow_last_pose_run :
  let msg :=
    PoseStamped.Build
      (Pose.Build
         (Point.Build (Float.double_of_Z 2) (Float.neg (Float.double_of_Z 3))
                      (Float.double_of_Z 5))
         (Quaternion.Build (Float.double_of_Z 0) (Float.double_of_Z 0)
                           (Float.double_of_Z 0) (Float.double_of_Z 1))) in
  Forall (fun m =>
            TrajectorySetpoint.x m = S754_finite false 8388608 (-22) /\
            TrajectorySetpoint.y m = S754_finite true 12582912 (-22) /\
            TrajectorySetpoint.z m = S754_finite true 10485760 (-21))
    (setpoints
       (published_by (spin 176 400 [wall_timer; Timesync_PubSubTopic 9; wall_timer])
          (state_after (spin 176 400 ([wall_timer] ++ [next_trajectory_setpoint msg]))
             (make_shared 0 3)))).
Proof.
  intro msg.
  exact (setpoints_follow_last_pose 176 400 0%N 3%N [wall_timer] msg
           [wall_timer; Timesync_PubSubTopic 9; wall_timer] eq_refl).
Defined.

(** Three expiries with the counter at 11, and with the largest [uint64]. *)
Lemma streaming_is_steady_run :
  state_after (spin 176 400 (repeat wall_timer 3))
    (Build_OffboardCommander 4 11 TrajectorySetpoint.zero)
  = Build_OffboardCommander 4 11 TrajectorySetpoint.zero /\
  state_after (spin 176 400 (repeat wall_timer 3))
    (Build_OffboardCommander 4 18446744073709551615 TrajectorySetpoint.zero)
  = Build_OffboardCommander 4 18446744073709551615 TrajectorySetpoint.zero.
Proof.
  split.
  - apply (proj1 (streaming_is_steady 176 400
                    (Build_OffboardCommander 4 11 TrajectorySetpoint.zero) 3
                    ltac:(discriminate))).
  - apply (proj1 (streaming_is_steady 176 400
                    (Build_OffboardCommander 4 18446744073709551615
                       TrajectorySetpoint.zero) 3
                    ltac:(discriminate))).
Defined.

(** A pose with a NaN, a positive and a negative infinity, then an expiry. *)
Lemma non_finite_pose_is_published_run :
  let msg :=
    PoseStamped.Build
      (Pose.Build (Point.Build S754_nan (S754_infinity false) (S754_infinity true))
         (Quaternion.Build (Float.double_of_Z 0) (Float.double_of_Z 0)
                           (Float.double_of_Z 0) (Float.double_of_Z 1))) in
  Forall (fun m =>
            TrajectorySetpoint.x m = S754_nan /\
            TrajectorySetpoint.y m = S754_infinity false /\
            TrajectorySetpoint.z m = S754_infinity false)
    (setpoints
       (published_by (spin 176 400 [wall_timer])
          (state_after (spin 176 400 ([] ++ [next_trajectory_setpoint msg]))
             (make_shared 0 3)))).
Proof.
  intro msg.
  exact (non_finite_pose_is_published 176 400 0%N 3%N [] false true
           (Pose.orientation (PoseStamped.pose msg)) [wall_timer] eq_refl).
Defined.
